(** * hello.py: a one-shot status reporter

    A shallow embedding of [examples/pepseption/hello.py]:

    <<
    import requests

    response = requests.get("https://api.github.com")
    print(f"GitHub API Status: {response.status_code}")
    print(f"Rate Limit: {response.headers.get('X-RateLimit-Remaining', 'N/A')}")
    >>

    The script is three statements of effectful code after the import: one
    call into the HTTP client, two calls of [print].  Its effects are
    modelled by a state-and-error monad over a trace of events; the
    interpreter's top level turns an uncaught exception into a diagnostic
    on the error stream and exit status 1.

    The development has two parts.  The first follows the script from the
    call of [requests.get] on, with a standard output that writes every
    text as it is.  The second, [Host], starts at [import requests] and
    gives the standard output an encoder that can refuse a character and a
    file that can refuse the bytes; the first part is its instance for a
    host that has the package, encodes everything and takes the bytes
    ([plain_run_is_host_run]). *)

From Stdlib Require Import ZArith String Ascii DecimalString List.
From Stdlib Require DecimalPos DecimalZ.
From stdpp Require Import gmap strings.

(** ** Python values and the builtins the script uses *)

Module Python.

(** Texts are strings of 8-bit characters. *)

(** The line feed that [print] appends to its argument. *)
Definition LF : ascii := "010"%char.
Definition nl : string := String LF EmptyString.

(** The objects that can reach a replacement field of the two f-strings:
    [response.status_code] is an [int]; a header value is a [str] in a
    response built by the HTTP client, and the default of [get] is the
    [str] ['N/A'].  [None], [bool] and [int] are kept so that values
    Python regards as false can be stored in a header mapping. *)
Inductive value : Type :=
| VStr (s : string)
| VInt (z : Z)
| VBool (b : bool)
| VNone.

(** [bool(v)]: Python's truth value testing. *)
Definition truth (v : value) : bool :=
  match v with
  | VStr s => negb (String.eqb s EmptyString)
  | VInt z => negb (Z.eqb z 0)
  | VBool b => b
  | VNone => false
  end.

(** [str(n)] for an [int]: decimal digits, a leading minus sign for a
    negative number. *)
Definition str_int (z : Z) : string := NilZero.string_of_int (Z.to_int z).

(** A replacement field [{v}] of an f-string with no conversion and no
    format specification is [format(v, '')], which is [str(v)] for these
    types. *)
Definition format (v : value) : string :=
  match v with
  | VStr s => s
  | VInt z => str_int z
  | VBool true => "True"
  | VBool false => "False"
  | VNone => "None"
  end.

(** [str.lower()], on ASCII: the letters A to Z are mapped to a to z and
    every other character is kept. *)
Definition lower_ascii (c : ascii) : ascii :=
  let n := N_of_ascii c in
  if ((65 <=? n) && (n <=? 90))%N then ascii_of_N (n + 32) else c.

Fixpoint lower (s : string) : string :=
  match s with
  | EmptyString => EmptyString
  | String c s' => String (lower_ascii c) (lower s')
  end.

(** Whether a text contains a line feed. *)
Fixpoint has_LF (s : string) : bool :=
  match s with
  | EmptyString => false
  | String c s' => Ascii.eqb c LF || has_LF s'
  end.

(** The lines of a text stream: maximal runs of characters other than the
    line feed, each ended by a line feed; a last run that is not ended by
    one counts as a line when it is not empty. *)
Fixpoint lines (s : string) : list string :=
  match s with
  | EmptyString => []
  | String c s' =>
      if Ascii.eqb c LF then EmptyString :: lines s'
      else match lines s' with
           | [] => [String c EmptyString]
           | l :: ls => String c l :: ls
           end
  end.

End Python.

(** ** The HTTP client library, as far as the script uses it *)

Module requests.
Import Python.

(** Modelled from the spec: the mapping of header names to header values
    of a response, with case-insensitive lookup.  The script's only
    dependency, the [requests] package, is not part of the repository;
    its [requests.structures.CaseInsensitiveDict] is the class of
    [response.headers].  This record and the methods that follow keep, as
    the class does, a store indexed by the lower-cased key that holds the
    key as it was last set together with the value. *)
Record CaseInsensitiveDict : Type := { _store : gmap string (string * value) }.

Definition empty : CaseInsensitiveDict := {| _store := ∅ |}.

(** [d[key] = v] *)
Definition setitem (d : CaseInsensitiveDict) (key : string) (v : value)
  : CaseInsensitiveDict :=
  {| _store := <[lower key := (key, v)]> (_store d) |}.

(** [d[key]]; [None] stands for the [KeyError]. *)
Definition getitem (d : CaseInsensitiveDict) (key : string) : option value :=
  snd <$> (_store d !! lower key).

(** [key in d] *)
Definition contains (d : CaseInsensitiveDict) (key : string) : bool :=
  match getitem d key with Some _ => true | None => false end.

(** [d.get(key, default)], the mixin method of [Mapping]: the value under
    the key, the default when the lookup raises [KeyError]. *)
Definition get (d : CaseInsensitiveDict) (key : string) (default : value) : value :=
  match getitem d key with
  | Some v => v
  | None => default
  end.

(** [CaseInsensitiveDict(data)] for a sequence of pairs: every pair is
    set in turn, so a later pair replaces an earlier one whose key
    differs from its own in case only. *)
Definition init (data : list (string * value)) : CaseInsensitiveDict :=
  fold_left (fun d kv => setitem d (fst kv) (snd kv)) data empty.

(** The two attributes of a response the script reads. *)
Record Response : Type := {
  status_code : Z;
  headers : CaseInsensitiveDict
}.

(** What a call of [requests.request] is given. *)
Record Request : Type := {
  method : string;
  url : string;
  params : option (list (string * string));
  data : option string;
  request_headers : option (list (string * string));
  auth : option (string * string)
}.

(** [requests.get(url)] with no other argument: method GET, and every
    optional argument left at [None]. *)
Definition get_request (u : string) : Request :=
  {| method := "GET"; url := u; params := None; data := None;
     request_headers := None; auth := None |}.

(** The errors of the one network call ([requests.exceptions]). *)
Inductive RequestException : Type :=
| ConnectionError
| SSLError
| ProxyError
| Timeout
| ConnectTimeout
| ReadTimeout
| TooManyRedirects
| ChunkedEncodingError
| ContentDecodingError
| InvalidHeader.

Definition class_name (c : RequestException) : string :=
  match c with
  | ConnectionError => "requests.exceptions.ConnectionError"
  | SSLError => "requests.exceptions.SSLError"
  | ProxyError => "requests.exceptions.ProxyError"
  | Timeout => "requests.exceptions.Timeout"
  | ConnectTimeout => "requests.exceptions.ConnectTimeout"
  | ReadTimeout => "requests.exceptions.ReadTimeout"
  | TooManyRedirects => "requests.exceptions.TooManyRedirects"
  | ChunkedEncodingError => "requests.exceptions.ChunkedEncodingError"
  | ContentDecodingError => "requests.exceptions.ContentDecodingError"
  | InvalidHeader => "requests.exceptions.InvalidHeader"
  end.

Record exception : Type := {
  exc_class : RequestException;
  exc_message : string
}.

End requests.

Import Python requests.

(** ** Effects *)

(** What a run is given and cannot change: the command line, the
    environment variables, the standard input, and the answer of
    [requests.get] to a call, which is a response or a raised exception. *)
Record Env : Type := {
  argv : list string;
  environ : list (string * string);
  stdin : string;
  network : Request -> exception + Response
}.

(** What a run does, in the order in which it does it. *)
Inductive event : Type :=
| Sent (rq : Request)
| Printed (text : string).

Definition trace : Type := list event.

(** Statements read the environment, extend the trace, and return a value
    or raise. *)
Definition M (A : Type) : Type := Env -> trace -> (exception + A) * trace.

Definition ret {A : Type} (a : A) : M A := fun _ t => (inr a, t).

Definition bind {A B : Type} (c : M A) (k : A -> M B) : M B :=
  fun e t =>
    match c e t with
    | (inr a, t') => k a e t'
    | (inl x, t') => (inl x, t')
    end.

Declare Scope script_scope.
Delimit Scope script_scope with script.
Notation "x <- c ;; k" := (bind c (fun x => k))
  (at level 100, c at next level, k at level 200, right associativity)
  : script_scope.
Notation "c ;; k" := (bind c (fun _ => k))
  (at level 100, k at level 200, right associativity) : script_scope.
Local Open Scope script_scope.

(** [requests.get(url)]: the call is recorded with what it is given, and
    it returns the response or raises.  What the library sends for the
    call is the library's own matter. *)
Definition requests_get (u : string) : M Response :=
  fun e t => (network e (get_request u), t ++ [Sent (get_request u)]).

(** [print(text)]: the text and a line feed go to the standard output.
    This is [print] on a stream that writes every text as it is; [Host]
    below has the stream that can refuse a text. *)
Definition print (text : string) : M unit :=
  fun _ t => (inr tt, t ++ [Printed text]).

(** ** The script *)

Definition hello : M unit :=
  response <- requests_get "https://api.github.com" ;;
  print ("GitHub API Status: " +:+ format (VInt (status_code response))) ;;
  print ("Rate Limit: " +:+
         format (get (headers response) "X-RateLimit-Remaining" (VStr "N/A"))).

(** ** A run of the interpreter *)

Record Process : Type := {
  events : trace;
  stderr : string;
  exit_code : Z
}.

(** The report of an uncaught exception on the error stream: the header
    line of the traceback and the line that names the exception (the lines
    for the stack frames are left out). *)
Definition traceback (x : exception) : string :=
  "Traceback (most recent call last):" +:+ nl +:+
  class_name (exc_class x) +:+ ": " +:+ exc_message x +:+ nl.

(** Running a module as a script: the body starts with an empty trace; when
    it ends the status is 0, when it raises the exception is reported and
    the status is 1. *)
Definition python (body : M unit) (e : Env) : Process :=
  match body e [] with
  | (inr _, t) => {| events := t; stderr := EmptyString; exit_code := 0 |}
  | (inl x, t) => {| events := t; stderr := traceback x; exit_code := 1 |}
  end.

(** The texts given to [print], in order. *)
Fixpoint printed (t : trace) : list string :=
  match t with
  | [] => []
  | Printed text :: t' => text :: printed t'
  | Sent _ :: t' => printed t'
  end.

(** The calls of [requests.get], in order. *)
Fixpoint sent (t : trace) : list Request :=
  match t with
  | [] => []
  | Sent rq :: t' => rq :: sent t'
  | Printed _ :: t' => sent t'
  end.

(** The standard output: every printed text followed by a line feed. *)
Fixpoint render (texts : list string) : string :=
  match texts with
  | [] => EmptyString
  | text :: rest => text +:+ nl +:+ render rest
  end.

Definition stdout (p : Process) : string := render (printed (events p)).

(** The request of the script and the name of the header it reads. *)
Definition the_request : Request := get_request "https://api.github.com".
Definition rate_header : string := "X-RateLimit-Remaining".

(** The two texts the script prints for a response. *)
Definition status_line (r : Response) : string :=
  "GitHub API Status: " +:+ str_int (status_code r).

Definition rate_line (v : value) : string := "Rate Limit: " +:+ format v.


(** ** Sample runs *)

Definition run_with (answer : exception + Response) : Env :=
  {| argv := ["hello.py"%string]; environ := []; stdin := EmptyString;
     network := fun _ => answer |}.

Definition response_happy : Response :=
  {| status_code := 200;
     headers := init [("Server"%string, VStr "github.com");
                      ("X-RateLimit-Remaining"%string, VStr "42")] |}.

Definition response_bare : Response :=
  {| status_code := 200;
     headers := init [("Server"%string, VStr "github.com")] |}.

Definition response_forbidden : Response :=
  {| status_code := 403;
     headers := init [("X-RateLimit-Remaining"%string, VStr "0")] |}.

Definition response_unavailable : Response :=
  {| status_code := 503; headers := empty |}.

Definition response_blank : Response :=
  {| status_code := 200;
     headers := init [("X-RateLimit-Remaining"%string, VStr EmptyString)] |}.


(** A header value that holds a line feed, as the value of a header field
    folded over two lines of the response does: the second line of the
    field starts with a space. *)
Definition response_folded : Response :=
  {| status_code := 200;
     headers := init [("X-RateLimit-Remaining"%string,
                       VStr ("4" +:+ nl +:+ " 2"))] |}.

(** A header value with a character outside ASCII: the last letter is
    U+00E9. *)
Definition response_accent : Response :=
  {| status_code := 200;
     headers := init [("X-RateLimit-Remaining"%string,
                       VStr ("caf" +:+ String "233"%char EmptyString))] |}.

(** A second run of the same script: another command line, another
    environment, another standard input. *)
Definition run_again_with (answer : exception + Response) : Env :=
  {| argv := ["hello.py"%string; "--verbose"%string];
     environ := [("GITHUB_TOKEN"%string, "secret"%string);
                 ("HOME"%string, "/root"%string)];
     stdin := "ignored";
     network := fun _ => answer |}.

Definition dns_failure : exception :=
  {| exc_class := ConnectionError;
     exc_message := "Name or service not known" |}.

(** The number of line feeds in a text. *)
Fixpoint count_LF (s : string) : nat :=
  match s with
  | EmptyString => 0
  | String c s' => (if Ascii.eqb c LF then 1 else 0) + count_LF s'
  end.

(** A response whose rate-limit header holds the very text of the
    placeholder. *)
Definition response_na : Response :=
  {| status_code := 200;
     headers := init [("X-RateLimit-Remaining"%string, VStr "N/A")] |}.

(** A header value of three lines. *)
Definition response_three : Response :=
  {| status_code := 200;
     headers := init [("X-RateLimit-Remaining"%string,
                       VStr ("a" +:+ nl +:+ "b" +:+ nl +:+ "c"))] |}.

(** ** The script on a host

    The run above starts at the call of [requests.get] and prints on a
    stream that writes every text as it is.  A host decides three more
    things: whether [import requests] finds the package, what the encoder
    of the standard output makes of each character, and whether the file
    behind the stream takes the bytes. *)

Module Host.

(** What a run is given: whether the package [requests] is installed; what
    [requests.get] returns or raises for a call; what the encoding and the
    error handler of [sys.stdout] make of a character (the text that is
    written for it, or [None] when the encoder refuses it, as the strict
    handler does for a character outside the encoding); whether the file
    behind the buffered stream takes the bytes ([false] for a full device
    or a pipe that nobody reads). *)
Record World : Type := {
  installed : bool;
  network : Request -> exception + Response;
  codec : ascii -> option string;
  takes : bool
}.

(** The exceptions that can end the script. *)
Inductive raised : Type :=
| ModuleNotFoundError (name : string)
| RequestFailed (x : exception)
| UnicodeEncodeError (text : string).

(** What a run does: a call of [requests.get], a text written to the
    standard output. *)
Inductive event : Type :=
| Sent (rq : Request)
| Wrote (out : string).

Definition M (A : Type) : Type :=
  World -> list event -> (raised + A) * list event.

Definition bind {A B : Type} (c : M A) (k : A -> M B) : M B :=
  fun w t =>
    match c w t with
    | (inr a, t') => k a w t'
    | (inl x, t') => (inl x, t')
    end.

Declare Scope host_scope.
Notation "x <- c ;; k" := (bind c (fun x => k))
  (at level 100, c at next level, k at level 200, right associativity)
  : host_scope.
Notation "c ;; k" := (bind c (fun _ => k))
  (at level 100, k at level 200, right associativity) : host_scope.
Local Open Scope host_scope.

(** [import requests] *)
Definition import_requests : M unit :=
  fun w t =>
    if installed w then (inr tt, t)
    else (inl (ModuleNotFoundError "requests"), t).

(** [requests.get(url)] *)
Definition requests_get (u : string) : M Response :=
  fun w t =>
    match network w (get_request u) with
    | inr r => (inr r, t ++ [Sent (get_request u)])
    | inl x => (inl (RequestFailed x), t ++ [Sent (get_request u)])
    end.

(** The encoder of the stream on a text: character by character; one
    refused character refuses the text. *)
Fixpoint encode (f : ascii -> option string) (s : string) : option string :=
  match s with
  | EmptyString => Some EmptyString
  | String c s' =>
      match f c, encode f s' with
      | Some x, Some y => Some (x +:+ y)
      | _, _ => None
      end
  end.

(** [sys.stdout.write(s)]: the text is encoded as a whole and then
    written; when the encoder refuses it nothing is written and
    [UnicodeEncodeError] is raised. *)
Definition write (s : string) : M unit :=
  fun w t =>
    match encode (codec w) s with
    | Some out => (inr tt, t ++ [Wrote out])
    | None => (inl (UnicodeEncodeError s), t)
    end.

(** [print(text)]: the text is written, then the line feed. *)
Definition print (text : string) : M unit :=
  write text ;; write nl.

(** The script, from its first statement. *)
Definition hello : M unit :=
  import_requests ;;
  response <- requests_get "https://api.github.com" ;;
  print ("GitHub API Status: " +:+ format (VInt (status_code response))) ;;
  print ("Rate Limit: " +:+
         format (get (headers response) "X-RateLimit-Remaining" (VStr "N/A"))).

(** The calls of [requests.get], in order. *)
Fixpoint sent (t : list event) : list Request :=
  match t with
  | [] => []
  | Sent rq :: t' => rq :: sent t'
  | Wrote _ :: t' => sent t'
  end.

(** The texts written, in order, and all of them as one text. *)
Fixpoint writes (t : list event) : list string :=
  match t with
  | [] => []
  | Wrote out :: t' => out :: writes t'
  | Sent _ :: t' => writes t'
  end.

Fixpoint written (t : list event) : string :=
  match t with
  | [] => EmptyString
  | Wrote out :: t' => out +:+ written t'
  | Sent _ :: t' => written t'
  end.

Record Process : Type := {
  events : list event;
  stdout : string;
  stderr : string;
  exit_code : Z
}.

(** The report of an uncaught exception (the lines for the stack frames are
    left out). *)
Definition report (x : raised) : string :=
  match x with
  | RequestFailed x' => traceback x'
  | ModuleNotFoundError name =>
      "Traceback (most recent call last):" +:+ nl +:+
      "ModuleNotFoundError: No module named '" +:+ name +:+ "'" +:+ nl
  | UnicodeEncodeError text =>
      "Traceback (most recent call last):" +:+ nl +:+
      "UnicodeEncodeError: codec can't encode character" +:+ nl
  end.

(** The report of the flush that fails when the interpreter exits. *)
Definition flush_report : string :=
  "Exception ignored in: <_io.TextIOWrapper name='<stdout>' mode='w'>"
  +:+ nl.

(** Running the script on a host.  The written texts reach the standard
    output when the file behind the stream takes them.  When it does not
    and something was written, the flush at exit fails: nothing reaches
    the output and the status is 120.  Otherwise the status is 0 when the
    body ends and 1 when it raises. *)
Definition python (body : M unit) (w : World) : Process :=
  let (result, t) := body w [] in
  let lost := negb (takes w) && negb (String.eqb (written t) EmptyString) in
  {| events := t;
     stdout := if takes w then written t else EmptyString;
     stderr := match result with
               | inr _ => EmptyString
               | inl x => report x
               end +:+ (if lost then flush_report else EmptyString);
     exit_code := if lost then 120
                  else match result with
                       | inr _ => 0
                       | inl _ => 1
                       end |}.

(** Encoders: UTF-8 has every character; ASCII with the strict handler
    refuses the characters from 128 on; ASCII with the handler [replace]
    writes a question mark for them. *)
Definition utf_8 (c : ascii) : option string := Some (String c EmptyString).

Definition ascii_strict (c : ascii) : option string :=
  if (N_of_ascii c <? 128)%N then Some (String c EmptyString) else None.

Definition ascii_replace (c : ascii) : option string :=
  if (N_of_ascii c <? 128)%N then Some (String c EmptyString) else Some "?"%string.

(** Whether the encoder writes every character of a text as it is, and
    whether it refuses none. *)
Fixpoint plain (f : ascii -> option string) (s : string) : bool :=
  match s with
  | EmptyString => true
  | String c s' =>
      match f c with
      | Some x => String.eqb x (String c EmptyString)
      | None => false
      end && plain f s'
  end.

Fixpoint accepted (f : ascii -> option string) (s : string) : bool :=
  match s with
  | EmptyString => true
  | String c s' =>
      match f c with Some _ => true | None => false end && accepted f s'
  end.

(** Sample hosts. *)
Definition host (f : ascii -> option string) (answer : exception + Response)
  : World :=
  {| installed := true; network := fun _ => answer; codec := f; takes := true |}.



End Host.

(** * Properties *)

(** ** Texts and lines *)

Lemma append_assoc (s t u : string) : (s +:+ t) +:+ u = s +:+ t +:+ u.
Proof.
  induction s as [|c s IH]; [reflexivity|].
  change (String c ((s +:+ t) +:+ u) = String c (s +:+ t +:+ u)).
  f_equal. exact IH.
Qed.

Lemma has_LF_app (s t : string) : has_LF (s +:+ t) = has_LF s || has_LF t.
Proof.
  induction s as [|c s IH]; simpl; [reflexivity|].
  rewrite IH. apply orb_assoc.
Qed.

Lemma lines_terminated (t rest : string) :
  has_LF t = false -> lines (t +:+ nl +:+ rest) = t :: lines rest.
Proof.
  induction t as [|c t IH]; simpl; intros Hno.
  - reflexivity.
  - apply orb_false_iff in Hno as [Hc Ht].
    rewrite Hc, (IH Ht). reflexivity.
Qed.

Lemma digits_no_LF (d : Decimal.uint) : has_LF (NilEmpty.string_of_uint d) = false.
Proof. induction d; simpl; auto. Qed.

Lemma str_int_no_LF (z : Z) : has_LF (str_int z) = false.
Proof.
  unfold str_int, NilZero.string_of_int, NilZero.string_of_uint.
  destruct (Z.to_int z) as [d|d]; destruct d; simpl;
    auto using digits_no_LF.
Qed.

Lemma status_line_no_LF (r : Response) : has_LF (status_line r) = false.
Proof.
  unfold status_line. rewrite has_LF_app, str_int_no_LF. reflexivity.
Qed.

Lemma rate_line_no_LF (v : value) :
  has_LF (format v) = false -> has_LF (rate_line v) = false.
Proof.
  intros Hv. unfold rate_line. rewrite has_LF_app, Hv. reflexivity.
Qed.

Lemma lines_two (a b : string) :
  has_LF a = false -> has_LF b = false -> lines (render [a; b]) = [a; b].
Proof.
  intros Ha Hb. simpl.
  rewrite (lines_terminated a _ Ha).
  rewrite (lines_terminated b _ Hb). reflexivity.
Qed.

(** ** The header mapping *)


Lemma getitem_setitem_other (d : CaseInsensitiveDict) (k k' : string) (v : value) :
  lower k <> lower k' -> getitem (setitem d k v) k' = getitem d k'.
Proof.
  intros Hk. unfold getitem, setitem. simpl.
  rewrite lookup_insert_ne by exact Hk. reflexivity.
Qed.



Lemma get_present (d : CaseInsensitiveDict) (k : string) (v default : value) :
  getitem d k = Some v -> get d k default = v.
Proof. intros H. unfold get. rewrite H. reflexivity. Qed.

Lemma get_absent (d : CaseInsensitiveDict) (k : string) (default : value) :
  contains d k = false -> get d k default = default.
Proof.
  unfold contains, get. destruct (getitem d k); [discriminate | reflexivity].
Qed.

(** ** The two outcomes of a run *)

Lemma python_hello_response (e : Env) (r : Response) :
  network e the_request = inr r ->
  python hello e =
  {| events := [Sent the_request;
                Printed (status_line r);
                Printed (rate_line (get (headers r) rate_header (VStr "N/A")))];
     stderr := EmptyString;
     exit_code := 0 |}.
Proof.
  intros Hnet. unfold python, hello, bind, requests_get, print.
  fold the_request. rewrite Hnet. reflexivity.
Qed.

Lemma python_hello_raise (e : Env) (x : exception) :
  network e the_request = inl x ->
  python hello e =
  {| events := [Sent the_request]; stderr := traceback x; exit_code := 1 |}.
Proof.
  intros Hnet. unfold python, hello, bind, requests_get.
  fold the_request. rewrite Hnet. reflexivity.
Qed.

Lemma stdout_hello_response (e : Env) (r : Response) :
  network e the_request = inr r ->
  stdout (python hello e) =
  status_line r +:+ nl +:+
  rate_line (get (headers r) rate_header (VStr "N/A")) +:+ nl.
Proof.
  intros Hnet. rewrite (python_hello_response e r Hnet). reflexivity.
Qed.

(** ** The claims *)

(** C1. Happy path: when the GET returns status code 200 and the header
    X-RateLimit-Remaining has the value 42, the standard output is the line
    [GitHub API Status: 200] followed by the line [Rate Limit: 42] and
    nothing else; nothing goes to the error stream. *)
Theorem happy_path (e : Env) (r : Response) :
  network e the_request = inr r ->
  status_code r = 200%Z ->
  getitem (headers r) "X-RateLimit-Remaining" = Some (VStr "42") ->
  stdout (python hello e)
  = "GitHub API Status: 200" +:+ nl +:+ "Rate Limit: 42" +:+ nl
  /\ lines (stdout (python hello e)) = ["GitHub API Status: 200"; "Rate Limit: 42"]%string
  /\ stderr (python hello e) = EmptyString.
Proof.
  intros Hnet Hcode Hval.
  assert (Hout : stdout (python hello e)
                 = "GitHub API Status: 200" +:+ nl +:+ "Rate Limit: 42" +:+ nl).
  { rewrite (stdout_hello_response e r Hnet).
    unfold status_line, rate_header. rewrite Hcode, (get_present _ _ _ _ Hval).
    reflexivity. }
  split; [exact Hout|]. split.
  - rewrite Hout. reflexivity.
  - rewrite (python_hello_response e r Hnet). reflexivity.
Qed.

Lemma happy_path_witness :
  stdout (python hello (run_with (inr response_happy)))
  = "GitHub API Status: 200" +:+ nl +:+ "Rate Limit: 42" +:+ nl
  /\ lines (stdout (python hello (run_with (inr response_happy))))
     = ["GitHub API Status: 200"; "Rate Limit: 42"]%string
  /\ stderr (python hello (run_with (inr response_happy))) = EmptyString.
Proof.
  apply (happy_path (run_with (inr response_happy)) response_happy);
    reflexivity.
Defined.

(** C2. Missing header: when the response has no X-RateLimit-Remaining
    header, the second printed line is exactly [Rate Limit: N/A], and the
    first line still reports the status code of the response. *)
Theorem missing_header_fallback (e : Env) (r : Response) :
  network e the_request = inr r ->
  contains (headers r) "X-RateLimit-Remaining" = false ->
  stdout (python hello e)
  = "GitHub API Status: " +:+ str_int (status_code r) +:+ nl +:+
    "Rate Limit: N/A" +:+ nl
  /\ lines (stdout (python hello e))
     = ["GitHub API Status: " +:+ str_int (status_code r); "Rate Limit: N/A"%string].
Proof.
  intros Hnet Habsent.
  pose proof (python_hello_response e r Hnet) as Hrun.
  unfold rate_header in Hrun. rewrite (get_absent _ _ _ Habsent) in Hrun.
  unfold stdout. rewrite Hrun. cbn [events printed]. split.
  - unfold status_line. cbn [render]. rewrite append_assoc. reflexivity.
  - apply lines_two; [apply status_line_no_LF | reflexivity].
Qed.

Lemma missing_header_fallback_witness :
  stdout (python hello (run_with (inr response_bare)))
  = "GitHub API Status: " +:+ str_int 200 +:+ nl +:+ "Rate Limit: N/A" +:+ nl
  /\ lines (stdout (python hello (run_with (inr response_bare))))
     = ["GitHub API Status: " +:+ str_int 200; "Rate Limit: N/A"%string].
Proof.
  apply (missing_header_fallback (run_with (inr response_bare)) response_bare);
    reflexivity.
Defined.

(** C3. Failure atomicity: when the network call raises, the exception is
    not caught: neither [print] runs, the standard output holds no line,
    the report of that very exception goes to the error stream, and the
    exit status is not zero. *)
Theorem failure_atomicity (e : Env) (x : exception) :
  network e the_request = inl x ->
  printed (events (python hello e)) = []
  /\ stdout (python hello e) = EmptyString
  /\ lines (stdout (python hello e)) = []
  /\ stderr (python hello e) = traceback x
  /\ stderr (python hello e) <> EmptyString
  /\ exit_code (python hello e) <> 0%Z.
Proof.
  intros Hnet. rewrite (python_hello_raise e x Hnet).
  unfold stdout. cbn [events stderr exit_code printed render lines].
  repeat split; discriminate.
Qed.

Lemma failure_atomicity_witness :
  printed (events (python hello (run_with (inl dns_failure)))) = []
  /\ stdout (python hello (run_with (inl dns_failure))) = EmptyString
  /\ lines (stdout (python hello (run_with (inl dns_failure)))) = []
  /\ stderr (python hello (run_with (inl dns_failure))) = traceback dns_failure
  /\ stderr (python hello (run_with (inl dns_failure))) <> EmptyString
  /\ exit_code (python hello (run_with (inl dns_failure))) <> 0%Z.
Proof.
  apply (failure_atomicity (run_with (inl dns_failure)) dns_failure).
  reflexivity.
Defined.

(** C4. No special-casing of the status: for a response whose status code
    is not 200, the first text printed is [GitHub API Status: ] followed by
    the decimal status code, and the second is the rate-limit text chosen
    by the presence or absence of the header: the same second text, and
    the same exit status, as for a response with status code 200 and the
    same headers. *)
Theorem no_special_casing (e e200 : Env) (r : Response) :
  network e the_request = inr r ->
  status_code r <> 200%Z ->
  network e200 the_request = inr {| status_code := 200; headers := headers r |} ->
  printed (events (python hello e))
  = ["GitHub API Status: " +:+ str_int (status_code r);
     "Rate Limit: " +:+
     format (match getitem (headers r) "X-RateLimit-Remaining" with
             | Some v => v
             | None => VStr "N/A"
             end)]
  /\ printed (events (python hello e200))
     = ["GitHub API Status: 200"%string;
        "Rate Limit: " +:+
        format (match getitem (headers r) "X-RateLimit-Remaining" with
                | Some v => v
                | None => VStr "N/A"
                end)]
  /\ exit_code (python hello e) = exit_code (python hello e200)
  /\ stderr (python hello e) = stderr (python hello e200).
Proof.
  intros Hnet _ Hnet200.
  rewrite (python_hello_response e r Hnet).
  rewrite (python_hello_response e200 _ Hnet200).
  repeat split; reflexivity.
Qed.

Lemma no_special_casing_witness :
  printed (events (python hello (run_with (inr response_forbidden))))
  = ["GitHub API Status: 403"; "Rate Limit: 0"]%string
  /\ printed (events (python hello
       (run_with (inr {| status_code := 200;
                         headers := headers response_forbidden |}))))
     = ["GitHub API Status: 200"; "Rate Limit: 0"]%string
  /\ exit_code (python hello (run_with (inr response_forbidden)))
     = exit_code (python hello
         (run_with (inr {| status_code := 200;
                           headers := headers response_forbidden |})))
  /\ stderr (python hello (run_with (inr response_forbidden)))
     = stderr (python hello
         (run_with (inr {| status_code := 200;
                           headers := headers response_forbidden |}))).
Proof.
  apply (no_special_casing
           (run_with (inr response_forbidden))
           (run_with (inr {| status_code := 200;
                             headers := headers response_forbidden |}))
           response_forbidden);
    [reflexivity | discriminate | reflexivity].
Defined.



(** C9. The placeholder stands in for an absent header only: when the
    header is present with a value [v], whatever [v] is and so also when
    Python regards it as false, [get] returns [v] and [v] is printed as it
    is; for the empty string the second line is [Rate Limit: ] with
    nothing after it. *)
Theorem placeholder_only_when_absent (e : Env) (r : Response) (v : value) :
  network e the_request = inr r ->
  getitem (headers r) "X-RateLimit-Remaining" = Some v ->
  get (headers r) "X-RateLimit-Remaining" (VStr "N/A") = v
  /\ stdout (python hello e)
     = "GitHub API Status: " +:+ str_int (status_code r) +:+ nl +:+
       "Rate Limit: " +:+ format v +:+ nl
  /\ (v = VStr EmptyString ->
      lines (stdout (python hello e))
      = ["GitHub API Status: " +:+ str_int (status_code r); "Rate Limit: "%string]).
Proof.
  intros Hnet Hpresent.
  pose proof (get_present _ _ _ (VStr "N/A") Hpresent) as Hget.
  split; [exact Hget|]. split.
  - rewrite (stdout_hello_response e r Hnet).
    unfold status_line, rate_line, rate_header.
    rewrite Hget, !append_assoc. reflexivity.
  - intros ->. unfold stdout. rewrite (python_hello_response e r Hnet).
    cbn [events printed]. unfold rate_header. rewrite Hget.
    apply lines_two; [apply status_line_no_LF | reflexivity].
Qed.

Lemma placeholder_only_when_absent_witness :
  truth (VStr EmptyString) = false
  /\ get (headers response_blank) "X-RateLimit-Remaining" (VStr "N/A") = VStr EmptyString
  /\ stdout (python hello (run_with (inr response_blank)))
     = "GitHub API Status: " +:+ str_int 200 +:+ nl +:+ "Rate Limit: " +:+ nl
  /\ lines (stdout (python hello (run_with (inr response_blank))))
     = ["GitHub API Status: " +:+ str_int 200; "Rate Limit: "%string].
Proof.
  destruct (placeholder_only_when_absent
              (run_with (inr response_blank)) response_blank (VStr EmptyString)
              eq_refl eq_refl) as (Hget & Hout & Hlines).
  split; [reflexivity|].
  split; [exact Hget | split; [exact Hout | exact (Hlines eq_refl)]].
Defined.

(** ** Further properties of the script *)

(** *** Helper lemmas on texts *)

Lemma append_inv_head (s t u : string) : s +:+ t = s +:+ u -> t = u.
Proof.
  induction s as [|c s IH]; cbn [append]; intros H; [exact H|].
  injection H as H. exact (IH H).
Qed.

Lemma append_nl_inv (s t : string) : s +:+ nl = t +:+ nl -> s = t.
Proof.
  revert t. induction s as [|c s IH]; intros [|c' t] H; cbn in H.
  - reflexivity.
  - injection H as _ H. destruct t; discriminate.
  - injection H as _ H. destruct s; discriminate.
  - injection H as Hc H. rewrite Hc, (IH t H). reflexivity.
Qed.

(** Two texts that agree and whose first parts hold no line feed agree on
    the part before their first line feed and on the part after it. *)
Lemma first_line_inv (a b x y : string) :
  has_LF a = false -> has_LF b = false ->
  a +:+ nl +:+ x = b +:+ nl +:+ y -> a = b /\ x = y.
Proof.
  revert b. induction a as [|c a IH]; intros [|c' b] Ha Hb H; cbn in H.
  - injection H as H. split; [reflexivity | exact H].
  - injection H as Hc _. cbn in Hb. rewrite <- Hc in Hb. discriminate.
  - injection H as Hc _. cbn in Ha. rewrite Hc in Ha. discriminate.
  - injection H as Hc H.
    cbn in Ha, Hb.
    apply orb_false_iff in Ha as [_ Ha]. apply orb_false_iff in Hb as [_ Hb].
    destruct (IH b Ha Hb H) as [Hab Hxy].
    split; [rewrite Hc, Hab; reflexivity | exact Hxy].
Qed.

Lemma to_int_not_nil (z : Z) :
  Z.to_int z <> Decimal.Pos Decimal.Nil /\ Z.to_int z <> Decimal.Neg Decimal.Nil.
Proof.
  destruct z as [|p|p]; cbn; split; try discriminate;
    intros H; injection H as H; exact (DecimalPos.Unsigned.to_uint_nonnil p H).
Qed.

(** The decimal text of an integer determines the integer. *)
Lemma str_int_inj (a b : Z) : str_int a = str_int b -> a = b.
Proof.
  unfold str_int. intros H.
  apply (f_equal NilZero.int_of_string) in H.
  destruct (to_int_not_nil a) as [Ha1 Ha2].
  destruct (to_int_not_nil b) as [Hb1 Hb2].
  rewrite (NilZero.isi _ Ha1 Ha2), (NilZero.isi _ Hb1 Hb2) in H.
  injection H as H. exact (DecimalZ.to_int_inj _ _ H).
Qed.

Lemma length_lines_terminated (t rest : string) :
  length (lines (t +:+ nl +:+ rest)) = count_LF t + 1 + length (lines rest).
Proof.
  induction t as [|c t IH]; cbn [append lines count_LF].
  - reflexivity.
  - change (String c t +:+ nl +:+ rest) with (String c (t +:+ nl +:+ rest)).
    cbn [lines]. destruct (Ascii.eqb c LF).
    + cbn [length]. rewrite IH. reflexivity.
    + destruct (lines (t +:+ nl +:+ rest)) as [|l ls]; cbn [length] in *; lia.
Qed.

Lemma count_LF_app (s t : string) : count_LF (s +:+ t) = count_LF s + count_LF t.
Proof.
  induction s as [|c s IH]; [reflexivity|].
  change (count_LF (String c (s +:+ t)) = count_LF (String c s) + count_LF t).
  cbn [count_LF]. rewrite IH. lia.
Qed.

Lemma length_lines_nl (t : string) : length (lines (t +:+ nl)) = count_LF t + 1.
Proof.
  change (t +:+ nl) with (t +:+ nl +:+ EmptyString).
  rewrite length_lines_terminated. cbn [lines length]. lia.
Qed.

(** *** What a run does, beyond the claims *)

(** X4. Only one header is read: setting on the response any header whose
    name differs from X-RateLimit-Remaining by more than case changes
    nothing of the run: the same events, the same error stream, the same
    exit status. *)
Theorem other_headers_ignored
    (e e' : Env) (r : Response) (k : string) (v : value) :
  network e the_request = inr r ->
  network e' the_request
  = inr {| status_code := status_code r; headers := setitem (headers r) k v |} ->
  String.eqb (lower k) (lower "X-RateLimit-Remaining") = false ->
  python hello e' = python hello e.
Proof.
  intros Hnet Hnet' Hk.
  rewrite (python_hello_response e r Hnet), (python_hello_response e' _ Hnet').
  unfold status_line, get, rate_header. cbn [status_code headers].
  rewrite getitem_setitem_other; [reflexivity|].
  apply String.eqb_neq. exact Hk.
Qed.

Lemma other_headers_ignored_witness :
  python hello
    (run_with (inr {| status_code := status_code response_happy;
                      headers := setitem (headers response_happy)
                                         "Retry-After" (VStr "60") |}))
  = python hello (run_with (inr response_happy)).
Proof.
  apply (other_headers_ignored
           (run_with (inr response_happy)) _ response_happy
           "Retry-After" (VStr "60"));
    reflexivity.
Defined.

(** X5. The placeholder cannot be told from a header that holds its text:
    a response without the header and a response whose header has the
    value N/A, with the same status code, give the same standard output. *)
Theorem placeholder_ambiguous (e1 e2 : Env) (r1 r2 : Response) :
  network e1 the_request = inr r1 ->
  network e2 the_request = inr r2 ->
  status_code r1 = status_code r2 ->
  contains (headers r1) "X-RateLimit-Remaining" = false ->
  getitem (headers r2) "X-RateLimit-Remaining" = Some (VStr "N/A") ->
  stdout (python hello e1) = stdout (python hello e2).
Proof.
  intros H1 H2 Hcode Habsent Hpresent.
  rewrite (stdout_hello_response e1 r1 H1), (stdout_hello_response e2 r2 H2).
  unfold status_line, rate_header.
  rewrite (get_absent _ _ _ Habsent), (get_present _ _ _ _ Hpresent), Hcode.
  reflexivity.
Qed.

Lemma placeholder_ambiguous_witness :
  stdout (python hello (run_with (inr response_bare)))
  = stdout (python hello (run_with (inr response_na))).
Proof.
  apply (placeholder_ambiguous
           (run_with (inr response_bare)) (run_with (inr response_na))
           response_bare response_na);
    reflexivity.
Defined.

(** ** The script on a host *)

(** *** The encoder *)

Lemma encode_plain (f : ascii -> option string) (s : string) :
  Host.plain f s = true -> Host.encode f s = Some s.
Proof.
  induction s as [|c s IH]; cbn [Host.plain Host.encode]; intros H.
  - reflexivity.
  - apply andb_true_iff in H as [Hc Hs].
    destruct (f c) as [x|]; [|discriminate].
    apply String.eqb_eq in Hc. rewrite (IH Hs), Hc. reflexivity.
Qed.

Lemma encode_accepted (f : ascii -> option string) (s : string) :
  Host.accepted f s = true -> exists out, Host.encode f s = Some out.
Proof.
  induction s as [|c s IH]; cbn [Host.accepted Host.encode]; intros H.
  - exists EmptyString. reflexivity.
  - apply andb_true_iff in H as [Hc Hs].
    destruct (f c) as [x|]; [|discriminate].
    destruct (IH Hs) as [out Hout]. rewrite Hout.
    exists (x +:+ out). reflexivity.
Qed.

Lemma encode_refused (f : ascii -> option string) (s : string) :
  Host.accepted f s = false -> Host.encode f s = None.
Proof.
  induction s as [|c s IH]; cbn [Host.accepted Host.encode]; intros H.
  - discriminate.
  - destruct (f c) as [x|]; [|reflexivity].
    cbn in H. rewrite (IH H). reflexivity.
Qed.


Lemma plain_app (f : ascii -> option string) (s t : string) :
  Host.plain f (s +:+ t) = Host.plain f s && Host.plain f t.
Proof.
  induction s as [|c s IH]; [reflexivity|].
  change (Host.plain f (String c (s +:+ t))
          = Host.plain f (String c s) && Host.plain f t).
  cbn [Host.plain]. rewrite IH. apply andb_assoc.
Qed.

Lemma accepted_app (f : ascii -> option string) (s t : string) :
  Host.accepted f (s +:+ t) = Host.accepted f s && Host.accepted f t.
Proof.
  induction s as [|c s IH]; [reflexivity|].
  change (Host.accepted f (String c (s +:+ t))
          = Host.accepted f (String c s) && Host.accepted f t).
  cbn [Host.accepted]. rewrite IH. apply andb_assoc.
Qed.

Lemma plain_utf_8 (s : string) : Host.plain Host.utf_8 s = true.
Proof.
  induction s as [|c s IH]; cbn [Host.plain Host.utf_8]; [reflexivity|].
  rewrite IH, String.eqb_refl. reflexivity.
Qed.

(** The parts of the expected output that the encoder writes as they are. *)
Lemma plain_output (f : ascii -> option string) (a b : string) :
  Host.plain f (a +:+ nl +:+ b +:+ nl) = true ->
  Host.plain f a = true /\ Host.plain f nl = true /\ Host.plain f b = true.
Proof.
  rewrite !plain_app, !andb_true_iff. tauto.
Qed.

Lemma accepted_output (f : ascii -> option string) (a b : string) :
  Host.accepted f (a +:+ nl +:+ b +:+ nl) = true ->
  Host.accepted f a = true /\ Host.accepted f nl = true
  /\ Host.accepted f b = true.
Proof.
  rewrite !accepted_app, !andb_true_iff. tauto.
Qed.

(** *** The outcomes of the body *)


Lemma hello_request_failed (w : Host.World) (x : exception) :
  Host.installed w = true ->
  Host.network w the_request = inl x ->
  Host.hello w [] = (inl (Host.RequestFailed x), [Host.Sent the_request]).
Proof.
  intros Hinst Hnet.
  unfold Host.hello, Host.bind, Host.import_requests, Host.requests_get.
  fold the_request. rewrite Hinst, Hnet. reflexivity.
Qed.

(** What the body does once a response is there, by what the encoder makes
    of the status text, of the line feed and of the rate-limit text. *)
Lemma hello_response (w : Host.World) (r : Response) :
  Host.installed w = true ->
  Host.network w the_request = inr r ->
  Host.hello w [] =
  match Host.encode (Host.codec w) (status_line r),
        Host.encode (Host.codec w) nl,
        Host.encode (Host.codec w)
          (rate_line (get (headers r) rate_header (VStr "N/A"))) with
  | None, _, _ =>
      (inl (Host.UnicodeEncodeError (status_line r)), [Host.Sent the_request])
  | Some o1, None, _ =>
      (inl (Host.UnicodeEncodeError nl), [Host.Sent the_request; Host.Wrote o1])
  | Some o1, Some o2, None =>
      (inl (Host.UnicodeEncodeError
              (rate_line (get (headers r) rate_header (VStr "N/A")))),
       [Host.Sent the_request; Host.Wrote o1; Host.Wrote o2])
  | Some o1, Some o2, Some o3 =>
      (inr tt, [Host.Sent the_request; Host.Wrote o1; Host.Wrote o2;
                Host.Wrote o3; Host.Wrote o2])
  end.
Proof.
  intros Hinst Hnet.
  unfold Host.hello, Host.bind, Host.import_requests, Host.requests_get,
    Host.print, Host.write, Host.bind.
  fold the_request. rewrite Hinst, Hnet.
  change ("GitHub API Status: " +:+ format (VInt (status_code r)))
    with (status_line r).
  change ("Rate Limit: " +:+
          format (get (headers r) "X-RateLimit-Remaining" (VStr "N/A")))
    with (rate_line (get (headers r) rate_header (VStr "N/A"))).
  destruct (Host.encode (Host.codec w) (status_line r)) as [o1|];
    [|reflexivity].
  destruct (Host.encode (Host.codec w) nl) as [o2|]; [|reflexivity].
  destruct (Host.encode (Host.codec w)
              (rate_line (get (headers r) rate_header (VStr "N/A"))))
    as [o3|]; reflexivity.
Qed.

(** On a host that writes both texts as they are and takes the bytes. *)
Lemma python_hello_plain (w : Host.World) (r : Response) :
  Host.installed w = true ->
  Host.network w the_request = inr r ->
  Host.takes w = true ->
  Host.plain (Host.codec w)
    (status_line r +:+ nl +:+
     rate_line (get (headers r) rate_header (VStr "N/A")) +:+ nl) = true ->
  Host.python Host.hello w =
  {| Host.events :=
       [Host.Sent the_request;
        Host.Wrote (status_line r); Host.Wrote nl;
        Host.Wrote (rate_line (get (headers r) rate_header (VStr "N/A")));
        Host.Wrote nl];
     Host.stdout :=
       status_line r +:+ nl +:+
       rate_line (get (headers r) rate_header (VStr "N/A")) +:+ nl;
     Host.stderr := EmptyString;
     Host.exit_code := 0 |}.
Proof.
  intros Hinst Hnet Htakes Hplain.
  apply plain_output in Hplain as (H1 & H2 & H3).
  unfold Host.python. rewrite (hello_response w r Hinst Hnet).
  rewrite (encode_plain _ _ H1), (encode_plain _ _ H2), (encode_plain _ _ H3).
  rewrite Htakes. cbn [negb andb Host.written]. reflexivity.
Qed.

Lemma append_empty_r (s : string) : s +:+ EmptyString = s.
Proof.
  induction s as [|c s IH]; [reflexivity|].
  change (String c (s +:+ EmptyString) = String c s). rewrite IH. reflexivity.
Qed.

(** The run of the first part is the run on a host that has the package,
    writes every character as it is and takes the bytes. *)
Lemma plain_run_is_host_run (e : Env) :
  let w := {| Host.installed := true; Host.network := network e;
              Host.codec := Host.utf_8; Host.takes := true |} in
  Host.stdout (Host.python Host.hello w) = stdout (python hello e)
  /\ Host.stderr (Host.python Host.hello w) = stderr (python hello e)
  /\ Host.exit_code (Host.python Host.hello w) = exit_code (python hello e).
Proof.
  intros w. destruct (network e the_request) as [x|r] eqn:Hnet.
  - rewrite (python_hello_raise e x Hnet). unfold Host.python.
    rewrite (hello_request_failed w x eq_refl Hnet).
    cbn [Host.takes w negb andb Host.written Host.report
         Host.stdout Host.stderr Host.exit_code stderr exit_code].
    rewrite append_empty_r. repeat split; reflexivity.
  - rewrite (python_hello_plain w r eq_refl Hnet eq_refl (plain_utf_8 _)).
    rewrite (python_hello_response e r Hnet). repeat split; reflexivity.
Qed.

(** *** The claims that need the host *)

(** C5, as stated, fails.  A header value is written as it is: the value
    of a header field folded over two lines holds a line feed, and the
    standard output then has three lines.  And a value that the encoder of
    the standard output refuses is not written at all: with the strict
    ASCII encoder and a value outside ASCII the call succeeds and the
    output has one line. *)
Lemma two_lines_counterexample :
  (Host.network (Host.host Host.utf_8 (inr response_folded)) the_request
   = inr response_folded
   /\ lines (Host.stdout
               (Host.python Host.hello (Host.host Host.utf_8 (inr response_folded))))
      = ["GitHub API Status: 200"; "Rate Limit: 4"; " 2"]%string)
  /\ (Host.network (Host.host Host.ascii_strict (inr response_accent)) the_request
      = inr response_accent
      /\ lines (Host.stdout
                  (Host.python Host.hello
                     (Host.host Host.ascii_strict (inr response_accent))))
         = ["GitHub API Status: 200"%string]).
Proof. repeat split. Qed.

(** C5, amended. Output shape: when the package is imported, the network
    call succeeds, and the standard output writes both texts as they are
    and takes the bytes, the script writes exactly [GitHub API Status: ]
    with the status code, a line feed, [Rate Limit: ] with the header value
    or the placeholder, and a line feed, in this order and nothing else;
    these are exactly two lines whenever the printed header value holds no
    line feed. *)
Theorem output_shape_on_host (w : Host.World) (r : Response) :
  Host.installed w = true ->
  Host.network w the_request = inr r ->
  Host.takes w = true ->
  Host.plain (Host.codec w)
    (("GitHub API Status: " +:+ str_int (status_code r)) +:+ nl +:+
     ("Rate Limit: " +:+
      format (get (headers r) "X-RateLimit-Remaining" (VStr "N/A"))) +:+ nl)
  = true ->
  Host.writes (Host.events (Host.python Host.hello w))
  = ["GitHub API Status: " +:+ str_int (status_code r); nl;
     "Rate Limit: " +:+
     format (get (headers r) "X-RateLimit-Remaining" (VStr "N/A")); nl]
  /\ Host.stdout (Host.python Host.hello w)
     = ("GitHub API Status: " +:+ str_int (status_code r)) +:+ nl +:+
       ("Rate Limit: " +:+
        format (get (headers r) "X-RateLimit-Remaining" (VStr "N/A"))) +:+ nl
  /\ (has_LF (format (get (headers r) "X-RateLimit-Remaining" (VStr "N/A")))
      = false ->
      lines (Host.stdout (Host.python Host.hello w))
      = ["GitHub API Status: " +:+ str_int (status_code r);
         "Rate Limit: " +:+
         format (get (headers r) "X-RateLimit-Remaining" (VStr "N/A"))]).
Proof.
  intros Hinst Hnet Htakes Hplain.
  rewrite (python_hello_plain w r Hinst Hnet Htakes Hplain).
  cbn [Host.events Host.stdout Host.writes].
  split; [reflexivity|]. split; [reflexivity|].
  intros Hv.
  apply (lines_two (status_line r)
           (rate_line (get (headers r) rate_header (VStr "N/A"))));
    [apply status_line_no_LF | apply rate_line_no_LF, Hv].
Qed.

Lemma output_shape_on_host_witness :
  Host.writes (Host.events
     (Host.python Host.hello (Host.host Host.ascii_strict (inr response_forbidden))))
  = ["GitHub API Status: 403"%string; nl; "Rate Limit: 0"%string; nl]
  /\ Host.stdout
       (Host.python Host.hello (Host.host Host.ascii_strict (inr response_forbidden)))
     = "GitHub API Status: 403" +:+ nl +:+ "Rate Limit: 0" +:+ nl
  /\ lines (Host.stdout
       (Host.python Host.hello (Host.host Host.ascii_strict (inr response_forbidden))))
     = ["GitHub API Status: 403"; "Rate Limit: 0"]%string.
Proof.
  destruct (output_shape_on_host
              (Host.host Host.ascii_strict (inr response_forbidden))
              response_forbidden eq_refl eq_refl eq_refl eq_refl)
    as (Hwrites & Hout & Hlines).
  split; [exact Hwrites | split; [exact Hout | exact (Hlines eq_refl)]].
Defined.






(** C10, as stated, fails: a response was received, and yet the second
    [print] raises and the exit status is 1, because the strict ASCII
    encoder of the standard output refuses the header value. *)
Lemma completion_counterexample :
  Host.network (Host.host Host.ascii_strict (inr response_accent)) the_request
  = inr response_accent
  /\ Host.writes (Host.events
       (Host.python Host.hello (Host.host Host.ascii_strict (inr response_accent))))
     = ["GitHub API Status: 200"%string; nl]
  /\ Host.exit_code
       (Host.python Host.hello (Host.host Host.ascii_strict (inr response_accent)))
     = 1%Z
  /\ Host.stderr
       (Host.python Host.hello (Host.host Host.ascii_strict (inr response_accent)))
     <> EmptyString.
Proof. repeat split. discriminate. Qed.

(** C10, amended. An HTTP error status is not an error of the script:
    whenever the package is imported, a response is received, whatever its
    status code, and the standard output refuses no character of the two
    texts and takes the bytes, both [print]s run to their end (four writes:
    each text and its line feed), nothing goes to the error stream and the
    exit status is 0. *)
Theorem response_completes_on_host (w : Host.World) (r : Response) :
  Host.installed w = true ->
  Host.network w the_request = inr r ->
  Host.takes w = true ->
  Host.accepted (Host.codec w)
    (("GitHub API Status: " +:+ str_int (status_code r)) +:+ nl +:+
     ("Rate Limit: " +:+
      format (get (headers r) "X-RateLimit-Remaining" (VStr "N/A"))) +:+ nl)
  = true ->
  length (Host.writes (Host.events (Host.python Host.hello w))) = 4
  /\ Host.stderr (Host.python Host.hello w) = EmptyString
  /\ Host.exit_code (Host.python Host.hello w) = 0%Z.
Proof.
  intros Hinst Hnet Htakes Hacc.
  apply (accepted_output _ (status_line r)
           (rate_line (get (headers r) rate_header (VStr "N/A"))))
    in Hacc as (H1 & H2 & H3).
  destruct (encode_accepted _ _ H1) as [o1 E1].
  destruct (encode_accepted _ _ H2) as [o2 E2].
  destruct (encode_accepted _ _ H3) as [o3 E3].
  unfold Host.python. rewrite (hello_response w r Hinst Hnet), E1, E2, E3, Htakes.
  repeat split; reflexivity.
Qed.

Lemma response_completes_on_host_witness :
  length (Host.writes (Host.events
     (Host.python Host.hello (Host.host Host.ascii_replace (inr response_unavailable)))))
  = 4
  /\ Host.stderr
       (Host.python Host.hello (Host.host Host.ascii_replace (inr response_unavailable)))
     = EmptyString
  /\ Host.exit_code
       (Host.python Host.hello (Host.host Host.ascii_replace (inr response_unavailable)))
     = 0%Z.
Proof.
  apply (response_completes_on_host
           (Host.host Host.ascii_replace (inr response_unavailable))
           response_unavailable);
    reflexivity.
Defined.

(** *** Further properties on a host *)

(** X2. The lines of the output, whatever the header value holds: when the
    package is imported, a response is received, and the standard output
    writes both texts as they are and takes the bytes, the first line of
    the output is always the status line, and the number of lines is two
    plus the number of line feeds in the printed header value. *)
Theorem lines_of_output_on_host (w : Host.World) (r : Response) :
  Host.installed w = true ->
  Host.network w the_request = inr r ->
  Host.takes w = true ->
  Host.plain (Host.codec w)
    (("GitHub API Status: " +:+ str_int (status_code r)) +:+ nl +:+
     ("Rate Limit: " +:+
      format (get (headers r) "X-RateLimit-Remaining" (VStr "N/A"))) +:+ nl)
  = true ->
  head (lines (Host.stdout (Host.python Host.hello w)))
  = Some ("GitHub API Status: " +:+ str_int (status_code r))
  /\ length (lines (Host.stdout (Host.python Host.hello w)))
     = 2 + count_LF (format (get (headers r) "X-RateLimit-Remaining" (VStr "N/A"))).
Proof.
  intros Hinst Hnet Htakes Hplain.
  rewrite (python_hello_plain w r Hinst Hnet Htakes Hplain).
  cbn [Host.stdout].
  rewrite (lines_terminated _ _ (status_line_no_LF r)).
  split; [reflexivity|].
  cbn [length]. unfold rate_line, rate_header.
  rewrite length_lines_nl, count_LF_app. cbn [count_LF Ascii.eqb]. cbn. lia.
Qed.

Lemma lines_of_output_on_host_witness :
  head (lines (Host.stdout
          (Host.python Host.hello (Host.host Host.utf_8 (inr response_three)))))
  = Some ("GitHub API Status: " +:+ str_int 200)
  /\ length (lines (Host.stdout
          (Host.python Host.hello (Host.host Host.utf_8 (inr response_three)))))
     = 4.
Proof.
  apply (lines_of_output_on_host
           (Host.host Host.utf_8 (inr response_three)) response_three);
    reflexivity.
Defined.

(** X3. The output loses nothing it prints: two runs that each import the
    package, receive a response and write to a standard output that writes
    both of its texts as they are and takes the bytes, have the same
    standard output exactly when the two status codes are equal and the
    two printed header values (or placeholders) have the same text. *)
Theorem fields_from_output_on_host (w1 w2 : Host.World) (r1 r2 : Response) :
  Host.installed w1 = true ->
  Host.installed w2 = true ->
  Host.network w1 the_request = inr r1 ->
  Host.network w2 the_request = inr r2 ->
  Host.takes w1 = true ->
  Host.takes w2 = true ->
  Host.plain (Host.codec w1)
    (("GitHub API Status: " +:+ str_int (status_code r1)) +:+ nl +:+
     ("Rate Limit: " +:+
      format (get (headers r1) "X-RateLimit-Remaining" (VStr "N/A"))) +:+ nl)
  = true ->
  Host.plain (Host.codec w2)
    (("GitHub API Status: " +:+ str_int (status_code r2)) +:+ nl +:+
     ("Rate Limit: " +:+
      format (get (headers r2) "X-RateLimit-Remaining" (VStr "N/A"))) +:+ nl)
  = true ->
  Host.stdout (Host.python Host.hello w1) = Host.stdout (Host.python Host.hello w2)
  <-> status_code r1 = status_code r2
      /\ format (get (headers r1) "X-RateLimit-Remaining" (VStr "N/A"))
         = format (get (headers r2) "X-RateLimit-Remaining" (VStr "N/A")).
Proof.
  intros Hi1 Hi2 Hn1 Hn2 Ht1 Ht2 Hp1 Hp2.
  rewrite (python_hello_plain w1 r1 Hi1 Hn1 Ht1 Hp1).
  rewrite (python_hello_plain w2 r2 Hi2 Hn2 Ht2 Hp2).
  cbn [Host.stdout]. unfold rate_header. split.
  - intros Hout.
    apply first_line_inv in Hout as [Hstatus Hrate];
      try apply status_line_no_LF.
    unfold status_line in Hstatus.
    apply append_inv_head, str_int_inj in Hstatus.
    apply append_nl_inv in Hrate. unfold rate_line in Hrate.
    apply append_inv_head in Hrate.
    split; assumption.
  - intros [Hstatus Hrate].
    unfold status_line, rate_line. rewrite Hstatus, Hrate. reflexivity.
Qed.

Lemma fields_from_output_on_host_witness :
  Host.stdout (Host.python Host.hello (Host.host Host.utf_8 (inr response_accent)))
  = Host.stdout
      (Host.python Host.hello (Host.host Host.ascii_strict (inr response_happy)))
  <-> status_code response_accent = status_code response_happy
      /\ format (get (headers response_accent) "X-RateLimit-Remaining" (VStr "N/A"))
         = format (get (headers response_happy) "X-RateLimit-Remaining" (VStr "N/A")).
Proof.
  apply (fields_from_output_on_host
           (Host.host Host.utf_8 (inr response_accent))
           (Host.host Host.ascii_strict (inr response_happy))
           response_accent response_happy);
    reflexivity.
Defined.

(** X7. Partial output: when a response is received and the standard
    output writes the status line and the line feed as they are but its
    encoder refuses a character of the rate-limit text, the run stops in
    the second [print]: the standard output holds the status line alone,
    a report goes to the error stream and the exit status is 1. *)
Theorem refused_value_partial_output (w : Host.World) (r : Response) :
  Host.installed w = true ->
  Host.network w the_request = inr r ->
  Host.takes w = true ->
  Host.plain (Host.codec w)
    (("GitHub API Status: " +:+ str_int (status_code r)) +:+ nl) = true ->
  Host.accepted (Host.codec w)
    ("Rate Limit: " +:+
     format (get (headers r) "X-RateLimit-Remaining" (VStr "N/A"))) = false ->
  Host.stdout (Host.python Host.hello w)
  = ("GitHub API Status: " +:+ str_int (status_code r)) +:+ nl
  /\ lines (Host.stdout (Host.python Host.hello w))
     = ["GitHub API Status: " +:+ str_int (status_code r)]
  /\ Host.stderr (Host.python Host.hello w) <> EmptyString
  /\ Host.exit_code (Host.python Host.hello w) = 1%Z.
Proof.
  intros Hinst Hnet Htakes Hplain Hrefused.
  change (Host.plain (Host.codec w) (status_line r +:+ nl) = true) in Hplain.
  rewrite plain_app in Hplain. apply andb_true_iff in Hplain as [H1 H2].
  apply (encode_refused _
           (rate_line (get (headers r) rate_header (VStr "N/A")))) in Hrefused.
  unfold Host.python.
  rewrite (hello_response w r Hinst Hnet).
  rewrite (encode_plain _ _ H1), (encode_plain _ _ H2), Hrefused, Htakes.
  cbn [negb andb Host.written Host.stdout Host.stderr Host.exit_code Host.report].
  split; [|split; [|split]].
  - rewrite append_empty_r. reflexivity.
  - rewrite (lines_terminated _ _ (status_line_no_LF r)). reflexivity.
  - discriminate.
  - reflexivity.
Qed.

Lemma refused_value_partial_output_witness :
  Host.stdout
    (Host.python Host.hello (Host.host Host.ascii_strict (inr response_accent)))
  = ("GitHub API Status: " +:+ str_int 200) +:+ nl
  /\ lines (Host.stdout
       (Host.python Host.hello (Host.host Host.ascii_strict (inr response_accent))))
     = ["GitHub API Status: " +:+ str_int 200]
  /\ Host.stderr
       (Host.python Host.hello (Host.host Host.ascii_strict (inr response_accent)))
     <> EmptyString
  /\ Host.exit_code
       (Host.python Host.hello (Host.host Host.ascii_strict (inr response_accent)))
     = 1%Z.
Proof.
  apply (refused_value_partial_output
           (Host.host Host.ascii_strict (inr response_accent)) response_accent);
    reflexivity.
Defined.
